(** * The notebook "2-advanced, part 1": corpus preprocessing and LDA with MALLET

    The repository is one Jupyter notebook.  Its code cells call three
    libraries (cophi, pandas, dariah) and define nothing of their own, so a
    cell is modelled as a small program that issues library calls and binds
    what they return.  The libraries are the environment: a handler answers
    each call with a value or raises, and every run leaves a trace of the
    calls that were made, with their arguments and answers. *)

From Stdlib Require Import ZArith Lia DecimalString DecimalNat Sorted.
From stdpp Require Import base list strings sorting.

Local Open Scope string_scope.
Local Open Scope list_scope.
Local Open Scope Z_scope.

(** ** Values *)

(** [pathlib.Path] applied to path segments: a pure path; building one
    touches no file. *)
Record PurePath := mkPath { parts : list string }.

Definition Path (segments : list string) : PurePath := mkPath segments.

(** A cell of a numeric DataFrame.  A float64 column holds [NaN] where a word
    is missing from a document and a count otherwise; an int64 column holds
    integers only.  The tag records the column's dtype. *)
Inductive cell : Type :=
| NaN
| Float (z : Z)
| Int (z : Z).

(** The argument of [astype]: the Python type objects the notebook could name. *)
Inductive pytype : Type := py_int | py_float.

(** A pandas DataFrame: row labels, column labels, and one list of cells per
    row. *)
Record Frame (A : Type) := mkFrame {
  index : list string;
  columns : list string;
  values : list (list A)
}.
Arguments mkFrame {A} _ _ _.
Arguments index {A} _.
Arguments columns {A} _.
Arguments values {A} _.

Definition DataFrame := Frame cell.

(** A Python exception: its class and its message. *)
Record exn := Exn { exn_class : string; exn_msg : string }.

(** Python's [str] of a non-negative int: its decimal digits. *)
Definition str (n : nat) : string := NilEmpty.string_of_uint (Nat.to_uint n).
Arguments str : simpl never.

(** [xs[:n]] for a literal n >= 0. *)
Definition slice_to {A} (n : nat) (xs : list A) : list A := take n xs.

(** What a call comes back with. *)
Inductive answer (X : Type) : Type :=
| Returned (x : X)
| Raised (ex : exn).
Arguments Returned {X} _.
Arguments Raised {X} _.

(** How a program ends. *)
Inductive outcome (R : Type) : Type :=
| Done (r : R)
| Uncaught (ex : exn).
Arguments Done {R} _.
Arguments Uncaught {R} _.

(** The objects owned by the libraries; the notebook only passes them on. *)
Class LibTypes := {
  Corpus : Type;          (* cophi.text.model.Corpus *)
  Model : Type;           (* dariah.core.LDA *)
  Visualization : Type;   (* dariah.core.Vis *)
  Axes : Type             (* the matplotlib object a plot returns *)
}.

Section Notebook.
Context `{LibTypes}.

(** What a cell hands to the kernel's display hook: the value of its last
    expression. *)
Inductive shown : Type :=
| ShList (l : list string)
| ShFrame (d : DataFrame)
| ShTopics (d : Frame string)
| ShModel (m : Model)
| ShVis (v : Visualization)
| ShAxes (a : Axes).

(** ** Calls

    Everything through which Python code leaves the cell.  The first group is
    what the notebook uses: imports, cophi, pandas, dariah, [print] and the
    display hook.  The second group lists the interpreter's own doors to
    files, the environment, the network, other processes and concurrent
    execution, which any cell could use. *)
Inductive call : Type -> Type :=
| Import (module : string) (names : list string) : call unit
| CophiCorpus (directory : PurePath) (lowercase : bool)
              (token_pattern : string) (metadata : bool) : call Corpus
| CorpusMfw (c : Corpus) (n : Z) : call (list string)
| CorpusHapax (c : Corpus) : call (list string)
| CorpusDtm (c : Corpus) : call DataFrame
| CorpusDrop (c : Corpus) (dtm : DataFrame) (features : list string) : call DataFrame
| Fillna (d : DataFrame) (value : Z) : call DataFrame
| Astype (d : DataFrame) (ty : pytype) : call DataFrame
| Iloc {A} (d : Frame A) (stop : Z) : call (Frame A)
| LDA (num_topics num_iterations : Z) (mallet : string) : call Model
| ModelFit (m : Model) (dtm : DataFrame) : call unit
| ModelTopics (m : Model) : call (Frame string)
| Vis (m : Model) : call Visualization
| TopicDocument (v : Visualization) : call Axes
| Magic (line : string) : call unit
| Print (text : string) : call unit
| Display (v : shown) : call unit
| Open (file mode : string) : call unit
| Getenv (name : string) : call (option string)
| Urlopen (url : string) : call string
| Popen (argv : list string) : call Z
| ThreadStart (target : string) : call unit
| CreateTask (coroutine : string) : call unit.

(** ** Programs *)

(** A cell program: return a value, make a call and go on with its answer, or
    guard a block with [try: ... except Exception as e: ...]. *)
Inductive nb (R : Type) : Type :=
| Ret (r : R)
| Do {X} (e : call X) (k : X -> nb R)
| Try {A} (body : nb A) (except : exn -> nb A) (k : A -> nb R).
Arguments Ret {R} _.
Arguments Do {R X} _ _.
Arguments Try {R A} _ _ _.

Fixpoint bind {A B} (m : nb A) (f : A -> nb B) : nb B :=
  match m with
  | Ret r => f r
  | Do e k => Do e (fun x => bind (k x) f)
  | Try body except k => Try body except (fun a => bind (k a) f)
  end.

#[global] Instance nb_ret : MRet nb := fun _ r => Ret r.
#[global] Instance nb_bind : MBind nb := fun _ _ f m => bind m f.

Definition do {X} (e : call X) : nb X := Do e Ret.

(** ** Runs *)

(** One line of the trace: the call and what the library answered. *)
Inductive entry : Type :=
| Entry {X} (e : call X) (a : answer X).

(** The libraries, with whatever state they keep (files, fitted models). *)
Definition handler (S : Type) : Type := forall X, call X -> S -> answer X * S.

Record run (S R : Type) := mkRun {
  trace : list entry;
  result : outcome R;
  final : S
}.
Arguments mkRun {S R} _ _ _.
Arguments trace {S R} _.
Arguments result {S R} _.
Arguments final {S R} _.

Definition after {S R} (t : list entry) (r : run S R) : run S R :=
  mkRun (t ++ trace r) (result r) (final r).

(** Python's evaluation: a call that raises ends the block it is in; only a
    [try] takes the exception and goes on. *)
Fixpoint exec {S R} (h : handler S) (p : nb R) (s : S) {struct p} : run S R :=
  match p with
  | Ret r => mkRun [] (Done r) s
  | Do e k =>
      match h _ e s with
      | (Returned x, s') => after [Entry e (Returned x)] (exec h (k x) s')
      | (Raised ex, s') => mkRun [Entry e (Raised ex)] (Uncaught ex) s'
      end
  | Try body except k =>
      let r1 := exec h body s in
      match result r1 with
      | Done a => after (trace r1) (exec h (k a) (final r1))
      | Uncaught ex =>
          let r2 := after (trace r1) (exec h (except ex) (final r1)) in
          match result r2 with
          | Done a => after (trace r2) (exec h (k a) (final r2))
          | Uncaught ex' => mkRun (trace r2) (Uncaught ex') (final r2)
          end
      end
  end.

(** ** The code cells, in the order of their execution counts *)

(** In [1]:
      from pathlib import Path
      import dariah
      import cophi *)
Definition cell1 : nb unit :=
  do (Import "pathlib" ["Path"]);;
  do (Import "dariah" []);;
  do (Import "cophi" []).

(** In [2]:  directory = Path("data", "british-fiction-corpus") *)
Definition cell2 : nb PurePath :=
  mret (Path ["data"; "british-fiction-corpus"]).

(** In [3]:
      corpus = cophi.corpus(directory, lowercase=True,
                            token_pattern=r"...", metadata=False) *)
Definition cell3 (directory : PurePath) : nb Corpus :=
  do (CophiCorpus directory true
        "\p{Letter}+\p{Connector_Punctuation}?\p{Letter}+" false).

(** In [4]:
      mfw = corpus.mfw(50)
      mfw[:10] *)
Definition cell4 (corpus : Corpus) : nb (list string) :=
  mfw ← do (CorpusMfw corpus 50);
  do (Display (ShList (slice_to 10 mfw)));;
  mret mfw.

(** In [5]:  corpus.hapax[:10] *)
Definition cell5 (corpus : Corpus) : nb unit :=
  hapax ← do (CorpusHapax corpus);
  do (Display (ShList (slice_to 10 hapax))).

(** In [6]:
      features = mfw + corpus.hapax
      print(f"{len(features)} types will be removed from the corpus.") *)
Definition cell6 (corpus : Corpus) (mfw : list string) : nb (list string) :=
  hapax ← do (CorpusHapax corpus);
  let features := mfw ++ hapax in
  do (Print (str (length features) +:+ " types will be removed from the corpus."));;
  mret features.

(** In [7]:
      dtm = corpus.drop(corpus.dtm, features).fillna(0).astype(int)
      dtm.iloc[:, :5] *)
Definition cell7 (corpus : Corpus) (features : list string) : nb DataFrame :=
  full ← do (CorpusDtm corpus);
  dropped ← do (CorpusDrop corpus full features);
  filled ← do (Fillna dropped 0);
  dtm ← do (Astype filled py_int);
  head ← do (Iloc dtm 5);
  do (Display (ShFrame head));;
  mret dtm.

(** In [8]:
      model = dariah.core.LDA(num_topics=10, num_iterations=1000,
                              mallet="mallet-2.0.8/bin/mallet")
      model *)
Definition cell8 : nb Model :=
  model ← do (LDA 10 1000 "mallet-2.0.8/bin/mallet");
  do (Display (ShModel model));;
  mret model.

(** In [9]:  model.fit(dtm) *)
Definition cell9 (model : Model) (dtm : DataFrame) : nb unit :=
  do (ModelFit model dtm).

(** In [10]:  model.topics.iloc[:, :5] *)
Definition cell10 (model : Model) : nb unit :=
  topics ← do (ModelTopics model);
  head ← do (Iloc topics 5);
  do (Display (ShTopics head)).

(** In [11]:
      vis = dariah.core.Vis(model)
      vis *)
Definition cell11 (model : Model) : nb Visualization :=
  vis ← do (Vis model);
  do (Display (ShVis vis));;
  mret vis.

(** In [12]:
      %matplotlib inline
      vis.topic_document() *)
Definition cell12 (vis : Visualization) : nb unit :=
  do (Magic "matplotlib inline");;
  ax ← do (TopicDocument vis);
  do (Display (ShAxes ax)).

(** The kernel's namespace once every cell has run. *)
Record namespace := mkNamespace {
  directory : PurePath;
  corpus : Corpus;
  mfw : list string;
  features : list string;
  dtm : DataFrame;
  model : Model;
  vis : Visualization
}.

(** Run All: the cells one after the other, each reading the names the
    earlier ones bound. *)
Definition notebook : nb namespace :=
  cell1;;
  directory ← cell2;
  corpus ← cell3 directory;
  mfw ← cell4 corpus;
  cell5 corpus;;
  features ← cell6 corpus mfw;
  dtm ← cell7 corpus features;
  model ← cell8;
  cell9 model dtm;;
  cell10 model;;
  vis ← cell11 model;
  cell12 vis;;
  mret (mkNamespace directory corpus mfw features dtm model vis).

End Notebook.

Arguments Ret {H R} _.
Arguments Do {H R X} _ _.
Arguments Try {H R A} _ _ _.
Arguments mkRun {H S R} _ _ _.
Arguments trace {H S R} _.
Arguments result {H S R} _.
Arguments final {H S R} _.

(** ** What the library calls on a DataFrame do

    cophi and pandas are not part of the repository.  The functions below
    state what their documentation says of the calls the notebook makes on a
    document-term matrix; the notebook itself never looks inside a frame. *)

(** Modelled from the spec: cophi's [Corpus.drop(dtm, features)], which is
    absent from the repository.  The features are dropped from the
    document-term matrix: every column whose label is listed goes, the rows
    stay as they are.  Labels that are no column are ignored. *)
Fixpoint drop_row (features cols : list string) (row : list cell) : list cell :=
  match cols, row with
  | c :: cols', x :: row' =>
      if decide (c ∈ features) then drop_row features cols' row'
      else x :: drop_row features cols' row'
  | _, _ => []
  end.

Definition drop (d : DataFrame) (features : list string) : DataFrame :=
  mkFrame (index d)
          (filter (λ c, c ∉ features) (columns d))
          (map (drop_row features (columns d)) (values d)).

(** Modelled from the spec: pandas' [DataFrame.fillna(value)], absent from the
    repository: every missing entry becomes [value], in the float column it
    was missing from; nothing else changes. *)
Definition fill (value : Z) (c : cell) : cell :=
  match c with
  | NaN => Float value
  | _ => c
  end.

Definition fillna (d : DataFrame) (value : Z) : DataFrame :=
  mkFrame (index d) (columns d) (map (map (fill value)) (values d)).

(** Modelled from the spec: pandas' [DataFrame.astype(dtype)], absent from the
    repository: every column is cast to the dtype.  A count held as a float
    becomes the same integer; a missing value has no integer and the cast
    raises ValueError. *)
Definition cast (ty : pytype) (c : cell) : option cell :=
  match ty, c with
  | py_int, NaN => None
  | py_int, Float z => Some (Int z)
  | py_int, Int z => Some (Int z)
  | py_float, NaN => Some NaN
  | py_float, Float z => Some (Float z)
  | py_float, Int z => Some (Float z)
  end.

Definition astype (d : DataFrame) (ty : pytype) : answer DataFrame :=
  match mapM (mapM (cast ty)) (values d) with
  | Some vs => Returned (mkFrame (index d) (columns d) vs)
  | None => Raised (Exn "ValueError"
                        "Cannot convert non-finite values (NA or inf) to integer")
  end.

(** [d.iloc[:, :stop]]: all rows, the columns before [stop]; a negative
    [stop] counts from the end, as in every Python slice. *)
Definition slice_stop (len : nat) (stop : Z) : nat :=
  if stop <? 0 then Z.to_nat (Z.of_nat len + stop) else Z.to_nat stop.

Definition iloc {A} (d : Frame A) (stop : Z) : Frame A :=
  let n := slice_stop (length (columns d)) stop in
  mkFrame (index d) (take n (columns d)) (map (take n) (values d)).

(** The entry of a row under a column label; a word a row has no cell for is
    missing from that document. *)
Fixpoint cell_at (cols : list string) (row : list cell) (w : string) : cell :=
  match cols, row with
  | c :: cols', x :: row' => if decide (c = w) then x else cell_at cols' row' w
  | _, _ => NaN
  end.

Definition count_of (c : cell) : Z :=
  match c with
  | NaN => 0
  | Float z => z
  | Int z => z
  end.

(** How often a word occurs in the whole corpus: the sum of its column. *)
Definition total (d : DataFrame) (w : string) : Z :=
  foldr Z.add 0 (map (λ row, count_of (cell_at (columns d) row w)) (values d)).

(** Modelled from the spec: a hapax legomenon is a word occurring exactly once
    in the corpus. *)
Definition occurs_once (d : DataFrame) (w : string) : Prop :=
  w ∈ columns d ∧ total d w = 1.

(** An entry as the corpus library produces it: a count, or missing. *)
Definition count_or_missing (c : cell) : Prop :=
  match c with
  | NaN => True
  | Float z => 0 <= z
  | Int z => 0 <= z
  end.

(** An entry of integer dtype holding a non-negative integer. *)
Definition nonneg_int (c : cell) : Prop :=
  match c with
  | Int z => 0 <= z
  | _ => False
  end.

(** An entry that is there and holds a count. *)
Definition present_count (c : cell) : Prop :=
  match c with
  | NaN => False
  | Float z => 0 <= z
  | Int z => 0 <= z
  end.

Definition entries (P : cell -> Prop) (d : DataFrame) : Prop :=
  Forall (Forall P) (values d).

(** ** A reference environment

    One way the libraries may behave, written out so that runs of the
    notebook can be evaluated: a corpus is a directory of tokenised
    documents, the document-term matrix counts tokens per document, and the
    sampler is left out (fitting records that it happened). *)

Record document := mkDocument { title : string; tokens : list string }.

Record ref_model := mkModel {
  num_topics : Z;
  num_iterations : Z;
  mallet : string
}.

#[global] Instance PurePath_eq_dec : EqDecision PurePath.
Proof. solve_decision. Defined.

#[global] Instance ref_model_eq_dec : EqDecision ref_model.
Proof. solve_decision. Defined.

Definition RefTypes : LibTypes :=
  {| Corpus := list document;
     Model := ref_model;
     Visualization := ref_model;
     Axes := unit |}.

Record world := mkWorld {
  directories : list (PurePath * list document);
  executables : list string;
  fitted : list ref_model;
  stdout : list string
}.

Fixpoint listdir (dir : PurePath) (fs : list (PurePath * list document))
  : option (list document) :=
  match fs with
  | [] => None
  | (p, docs) :: fs' => if decide (p = dir) then Some docs else listdir dir fs'
  end.

Definition vocabulary (docs : list document) : list string :=
  remove_dups (concat (map tokens docs)).

Definition occurrences (w : string) (toks : list string) : Z :=
  Z.of_nat (length (filter (λ t, t = w) toks)).

(** Modelled from the spec: the document-term matrix is the table of
    per-document word counts; a word a document does not use is missing
    from its row. *)
Definition bow_cell (doc : document) (w : string) : cell :=
  let n := occurrences w (tokens doc) in
  if n =? 0 then NaN else Float n.

Definition build_dtm (docs : list document) : DataFrame :=
  let vocab := vocabulary docs in
  mkFrame (map title docs) vocab (map (λ doc, map (bow_cell doc) vocab) docs).

(** Modelled from the spec: the hapax legomena are the words occurring
    exactly once in the corpus. *)
Definition ref_hapax (docs : list document) : list string :=
  let d := build_dtm docs in
  filter (λ w, total d w = 1) (columns d).

Fixpoint insert_by (key : string -> Z) (w : string) (l : list string) : list string :=
  match l with
  | [] => [w]
  | x :: l' => if key x <? key w then w :: l else x :: insert_by key w l'
  end.

(** The [n] most frequent words, the most frequent first. *)
Definition ref_mfw (docs : list document) (n : Z) : list string :=
  let d := build_dtm docs in
  let ranked := foldr (insert_by (total d)) [] (columns d) in
  take (slice_stop (length ranked) n) ranked.

Definition topic_labels (k : Z) : list string :=
  map (λ i, "topic" +:+ str i) (seq 0 (Z.to_nat k)).

Definition no_such_door {X} : answer X :=
  Raised (Exn "OSError" "not available in the reference environment").

Definition ref_handler : @handler RefTypes world :=
  λ X (e : @call RefTypes X) (w : world),
  match e in call X return answer X * world with
  | Import _ _ => (Returned (), w)
  | CophiCorpus dir _ _ _ =>
      match listdir dir (directories w) with
      | Some docs => (Returned docs, w)
      | None => (Raised (Exn "FileNotFoundError" "no such corpus directory"), w)
      end
  | CorpusMfw c n => (Returned (ref_mfw c n), w)
  | CorpusHapax c => (Returned (ref_hapax c), w)
  | CorpusDtm c => (Returned (build_dtm c), w)
  | CorpusDrop _ d fs => (Returned (drop d fs), w)
  | Fillna d v => (Returned (fillna d v), w)
  | Astype d ty => (astype d ty, w)
  | Iloc d stop => (Returned (iloc d stop), w)
  | LDA k i m => (Returned (mkModel k i m), w)
  | ModelFit m _ =>
      if decide (mallet m ∈ executables w)
      then (Returned (),
            mkWorld (directories w) (executables w) (m :: fitted w) (stdout w))
      else (Raised (Exn "FileNotFoundError" "no such executable"), w)
  | ModelTopics m =>
      if decide (m ∈ fitted w)
      then (Returned (mkFrame (topic_labels (num_topics m)) []
                              (map (λ _, []) (topic_labels (num_topics m)))), w)
      else (Raised (Exn "AttributeError" "the model is not fitted"), w)
  | Vis m => (Returned m, w)
  | TopicDocument _ => (Returned (), w)
  | Magic _ => (Returned (), w)
  | Print text =>
      (Returned (),
       mkWorld (directories w) (executables w) (fitted w) (stdout w ++ [text]))
  | Display _ => (Returned (), w)
  | Open _ _ => (no_such_door, w)
  | Getenv _ => (no_such_door, w)
  | Urlopen _ => (no_such_door, w)
  | Popen _ => (no_such_door, w)
  | ThreadStart _ => (no_such_door, w)
  | CreateTask _ => (no_such_door, w)
  end.

(** A small corpus: one directory with two documents, and MALLET installed. *)
Definition small_world : world :=
  mkWorld
    [(Path ["data"; "british-fiction-corpus"],
      [mkDocument "fielding_tom" ["the"; "man"; "and"; "the"; "lady"; "abandon"];
       mkDocument "dickens_bleak" ["the"; "lady"; "and"; "the"; "fog"]])]
    ["mallet-2.0.8/bin/mallet"]
    []
    [].

(** The same corpus on a machine without MALLET. *)
Definition world_without_mallet : world :=
  mkWorld (directories small_world) [] [] [].

(** A machine without the corpus directory. *)
Definition empty_world : world := mkWorld [] [] [] [].

(** A corpus with more than fifty word types, so that columns survive the
    filter: sixty words, the first twenty in both documents, and one word
    that occurs once. *)
Definition wordlist (n : nat) : list string :=
  map (λ i, "w" +:+ str i) (seq 0 n).

Definition larger_world : world :=
  mkWorld
    [(Path ["data"; "british-fiction-corpus"],
      [mkDocument "eliot_adam" (wordlist 60 ++ wordlist 60 ++ ["solo"]);
       mkDocument "eliot_mill" (wordlist 20 ++ wordlist 5)])]
    ["mallet-2.0.8/bin/mallet"]
    []
    [].

Definition ref_run (w : world) := @exec RefTypes _ _ ref_handler notebook w.


(** ** Reading a trace *)

Section Reading.
Context `{LibTypes}.

(** What a trace shows of one kind of thing: each call contributes the items
    [f] reads off it, in the order of the calls. *)
Definition project {A} (f : ∀ X, call X -> list A) (t : list entry) : list A :=
  concat (map (λ en, match en with Entry e _ => f _ e end) t).

Definition returned (en : entry) : Prop :=
  match en with
  | Entry _ (Returned _) => True
  | Entry _ (Raised _) => False
  end.

Definition finished {S R} (r : run S R) : Prop := ∃ x, result r = Done x.

(** A run propagates exceptions when it either finishes with every call
    answered, or ends at the first call that raised, with that very
    exception uncaught. *)
Definition propagates {S R} (r : run S R) : Prop :=
  match result r with
  | Done _ => Forall returned (trace r)
  | Uncaught ex =>
      ∃ t X (e : call X),
        trace r = t ++ [Entry e (Raised ex)] ∧ Forall returned t
  end.

(** *** The steps of the demonstration flow *)

Inductive phase : Type := Load | Filter | Matrix | Fit | Visualize.

Definition rank (p : phase) : nat :=
  match p with
  | Load => 0
  | Filter => 1
  | Matrix => 2
  | Fit => 3
  | Visualize => 4
  end.

(** The step a call belongs to: [cophi.corpus] loads; [mfw] and [hapax] build
    the filter list; reading [corpus.dtm], [drop], [fillna] and [astype]
    build the matrix; [model.fit] fits; [Vis] and [topic_document]
    visualize.  Imports, output, and the model's constructor and accessors
    belong to no step. *)
Definition phase_of X (e : call X) : list phase :=
  match e with
  | CophiCorpus _ _ _ _ => [Load]
  | CorpusMfw _ _ => [Filter]
  | CorpusHapax _ => [Filter]
  | CorpusDtm _ => [Matrix]
  | CorpusDrop _ _ _ => [Matrix]
  | Fillna _ _ => [Matrix]
  | Astype _ _ => [Matrix]
  | ModelFit _ _ => [Fit]
  | Vis _ => [Visualize]
  | TopicDocument _ => [Visualize]
  | _ => []
  end.

(** The one flow of the notebook: load, three reads for the filter list,
    four calls that build the matrix, one fit, two visualization calls. *)
Definition flow : list phase :=
  [Load; Filter; Filter; Filter; Matrix; Matrix; Matrix; Matrix; Fit;
   Visualize; Visualize].

Definition in_order (ps : list phase) : Prop :=
  StronglySorted (λ p q, (rank p <= rank q)%nat) ps.

(** *** Configuration values *)

Inductive setting : Type :=
| Stopwords (n : Z)
| NumTopics (n : Z)
| NumIterations (n : Z)
| MalletPath (path : string).

Definition setting_of X (e : call X) : list setting :=
  match e with
  | CorpusMfw _ n => [Stopwords n]
  | LDA k i m => [NumTopics k; NumIterations i; MalletPath m]
  | _ => []
  end.

(** The values as they are written in the cells, each once. *)
Definition written_settings : list setting :=
  [Stopwords 50; NumTopics 10; NumIterations 1000;
   MalletPath "mallet-2.0.8/bin/mallet"].

(** *** External resources *)

Inductive resource : Type :=
| CorpusDirectory (p : PurePath)
| Executable (path : string)
| File (name : string)
| EnvVar (name : string)
| Url (url : string).

(** The resource a call names. *)
Definition resource_of X (e : call X) : list resource :=
  match e with
  | CophiCorpus dir _ _ _ => [CorpusDirectory dir]
  | LDA _ _ m => [Executable m]
  | Open file _ => [File file]
  | Getenv name => [EnvVar name]
  | Urlopen url => [Url url]
  | _ => []
  end.

Definition designated_resources : list resource :=
  [CorpusDirectory (Path ["data"; "british-fiction-corpus"]);
   Executable "mallet-2.0.8/bin/mallet"].

(** *** Processes and concurrency *)

(** The command line of a process the call starts itself. *)
Definition spawn_of X (e : call X) : list (list string) :=
  match e with
  | Popen argv => [argv]
  | _ => []
  end.

(** The thread target or coroutine the call sets running. *)
Definition concurrent_of X (e : call X) : list string :=
  match e with
  | ThreadStart target => [target]
  | CreateTask coroutine => [coroutine]
  | _ => []
  end.

(** *** Straight-line programs *)

(** [emits f p l]: [p] is a sequence of calls with no [try] around any of
    them, and along it the calls show exactly [l] under [f]. *)
Inductive emits {A} (f : ∀ X, call X -> list A) {R} : nb R -> list A -> Prop :=
| emits_ret r : emits f (Ret r) []
| emits_do X (e : call X) k l :
    (∀ x, emits f (k x) l) -> emits f (Do e k) (f X e ++ l).

(** *** Postconditions *)

(** [post ok p Q]: whatever the libraries answer within the contract [ok],
    the trace and the outcome of [p] satisfy [Q]. *)
Fixpoint post (ok : ∀ X, call X -> answer X -> Prop) {R} (p : nb R)
    (Q : list entry -> outcome R -> Prop) {struct p} : Prop :=
  match p with
  | Ret r => Q [] (Done r)
  | Do e k =>
      ∀ a, ok _ e a ->
        match a with
        | Returned x => post ok (k x) (λ t o, Q (Entry e a :: t) o)
        | Raised ex => Q [Entry e a] (Uncaught ex)
        end
  | Try body except k =>
      post ok body (λ t1 o1,
        match o1 with
        | Done a => post ok (k a) (λ t o, Q (t1 ++ t) o)
        | Uncaught ex =>
            post ok (except ex) (λ t2 o2,
              match o2 with
              | Done a => post ok (k a) (λ t o, Q ((t1 ++ t2) ++ t) o)
              | Uncaught ex' => Q (t1 ++ t2) (Uncaught ex')
              end)
        end)
  end.

(** A handler keeps a contract when each of its answers, in every state, is
    within it. *)
Definition respects {S} (h : handler S) (ok : ∀ X, call X -> answer X -> Prop) : Prop :=
  ∀ X (e : call X) (s : S), ok X e (h X e s).1.

(** *** What the notebook relies on from cophi and pandas

    [matrix_of c] is the document-term matrix of corpus [c].  Reading
    [c.dtm] gives it; [c.hapax] lists at least every word that occurs
    exactly once in it; [drop], [fillna] and [astype] do what their
    documentation says. *)
Definition library_contract (matrix_of : Corpus -> DataFrame)
    X (e : call X) : answer X -> Prop :=
  match e in call X return answer X -> Prop with
  | CorpusDtm c => λ a,
      match a with
      | Returned d => d = matrix_of c
      | Raised _ => True
      end
  | CorpusHapax c => λ a,
      match a with
      | Returned l => ∀ w, occurs_once (matrix_of c) w -> w ∈ l
      | Raised _ => True
      end
  | CorpusDrop _ d fs => λ a, a = Returned (drop d fs)
  | Fillna d v => λ a, a = Returned (fillna d v)
  | Astype d ty => λ a, a = astype d ty
  | _ => λ _, True
  end.

Definition no_contract X (e : call X) (a : answer X) : Prop := True.

(** *** Reading answers and arguments off a trace *)

Definition mfw_answers (t : list entry) : list (list string) :=
  concat (map (λ en, match en with
                     | Entry (CorpusMfw _ _) (Returned l) => [l]
                     | _ => []
                     end) t).

Definition hapax_answers (t : list entry) : list (list string) :=
  concat (map (λ en, match en with
                     | Entry (CorpusHapax _) (Returned l) => [l]
                     | _ => []
                     end) t).

(** The corpora [cophi.corpus] returned. *)
Definition loaded (t : list entry) : list Corpus :=
  concat (map (λ en, match en with
                     | Entry (CophiCorpus _ _ _ _) (Returned c) => [c]
                     | _ => []
                     end) t).

Definition printed (t : list entry) : list string :=
  project (λ X e, match e with Print text => [text] | _ => [] end) t.

(** The matrices handed to [model.fit]. *)
Definition fitted_on (t : list entry) : list DataFrame :=
  project (λ X e, match e with ModelFit _ d => [d] | _ => [] end) t.

(** The calls to [astype] that raised. *)
Definition failed_casts (t : list entry) : list exn :=
  concat (map (λ en, match en with
                     | Entry (Astype _ _) (Raised ex) => [ex]
                     | _ => []
                     end) t).

(** The frames and feature lists handed to [corpus.drop]. *)
Definition drops (t : list entry) : list (DataFrame * list string) :=
  project (λ X e, match e with CorpusDrop _ d fs => [(d, fs)] | _ => [] end) t.

(** The columns that [drop] takes out of a frame. *)
Definition dropped_types (d : DataFrame) (features : list string) : list string :=
  filter (λ c, c ∈ features) (columns d).

(** What holds of the line cell 6 prints: it is the sum of the lengths of the
    list [mfw] returned and of the list the second read of [hapax] returned,
    and [features] is the one followed by the other. *)
Definition print_count (t : list entry) (o : outcome namespace) : Prop :=
  ∀ text, text ∈ printed t ->
    ∃ m l0 l,
      mfw_answers t = [m] ∧ hapax_answers t = [l0; l]
      ∧ text = str (length m + length l) +:+ " types will be removed from the corpus."
      ∧ ∀ g, o = Done g -> mfw g = m ∧ features g = m ++ l.

(** The matrix cell 7 binds to [dtm], as a function of the corpus's matrix
    and the feature list, when the libraries keep the contract. *)
Definition filtered (d : DataFrame) (features : list string) : answer DataFrame :=
  astype (fillna (drop d features) 0) py_int.

(** What holds of a run's matrix under the contract: every matrix given to
    [model.fit] and every failure of the cast comes from filtering the matrix
    of the one corpus loaded (under features that hold every word occurring
    once), and at the end [dtm] is the filtered matrix of [corpus] under
    [features], which are [mfw] followed by a list holding every word that
    occurs once. *)
Definition dataflow (matrix_of : Corpus -> DataFrame)
    (t : list entry) (o : outcome namespace) : Prop :=
  (∀ d, d ∈ fitted_on t ->
     ∃ c fs, loaded t = [c]
             ∧ filtered (matrix_of c) fs = Returned d
             ∧ ∀ w, occurs_once (matrix_of c) w -> w ∈ fs)
  ∧ (∀ ex, ex ∈ failed_casts t ->
       ∃ c fs, loaded t = [c] ∧ filtered (matrix_of c) fs = Raised ex)
  ∧ (∀ g, o = Done g ->
       loaded t = [corpus g]
       ∧ filtered (matrix_of (corpus g)) (features g) = Returned (dtm g)
       ∧ ∃ l, features g = mfw g ++ l
              ∧ ∀ w, occurs_once (matrix_of (corpus g)) w -> w ∈ l).

End Reading.

(** ** Reading more off a trace: names, outputs, and who receives what *)

Section Coverage.
Context `{LibTypes}.

(** The import statement as it stands in the cell. *)
Definition import_line (module : string) (names : list string) : string :=
  match names with
  | [] => "import " +:+ module
  | _ => "from " +:+ module +:+ " import " +:+ String.concat ", " names
  end.

(** The name under which a cell reaches a call. *)
Definition name_of X (e : call X) : list string :=
  match e with
  | Import module names => [import_line module names]
  | CophiCorpus _ _ _ _ => ["cophi.corpus"]
  | CorpusMfw _ _ => ["corpus.mfw"]
  | CorpusHapax _ => ["corpus.hapax"]
  | CorpusDtm _ => ["corpus.dtm"]
  | CorpusDrop _ _ _ => ["corpus.drop"]
  | Fillna _ _ => ["fillna"]
  | Astype _ _ => ["astype"]
  | Iloc _ _ => ["iloc"]
  | LDA _ _ _ => ["dariah.core.LDA"]
  | ModelFit _ _ => ["model.fit"]
  | ModelTopics _ => ["model.topics"]
  | Vis _ => ["dariah.core.Vis"]
  | TopicDocument _ => ["vis.topic_document"]
  | Magic line => ["%" +:+ line]
  | Print _ => ["print"]
  | Display _ => ["display"]
  | Open _ _ => ["open"]
  | Getenv _ => ["os.getenv"]
  | Urlopen _ => ["urlopen"]
  | Popen _ => ["subprocess.Popen"]
  | ThreadStart _ => ["Thread.start"]
  | CreateTask _ => ["asyncio.create_task"]
  end.

(** The calls of the twelve cells, cell by cell. *)
Definition skeleton : list string :=
  ["from pathlib import Path"; "import dariah"; "import cophi"]
  ++ ["cophi.corpus"]
  ++ ["corpus.mfw"; "display"]
  ++ ["corpus.hapax"; "display"]
  ++ ["corpus.hapax"; "print"]
  ++ ["corpus.dtm"; "corpus.drop"; "fillna"; "astype"; "iloc"; "display"]
  ++ ["dariah.core.LDA"; "display"]
  ++ ["model.fit"]
  ++ ["model.topics"; "iloc"; "display"]
  ++ ["dariah.core.Vis"; "display"]
  ++ ["%matplotlib inline"; "vis.topic_document"; "display"].

(** The options of [cophi.corpus]: directory, lowercase, token pattern,
    metadata. *)
Definition load_of X (e : call X) : list (PurePath * bool * string * bool) :=
  match e with
  | CophiCorpus dir lowercase pattern metadata => [(dir, lowercase, pattern, metadata)]
  | _ => []
  end.

Definition written_load : list (PurePath * bool * string * bool) :=
  [(Path ["data"; "british-fiction-corpus"], true,
    "\p{Letter}+\p{Connector_Punctuation}?\p{Letter}+", false)].

(** The literal arguments of the pandas calls: the fill value, the target
    type, the column stop of a preview. *)
Inductive literal : Type :=
| FillValue (v : Z)
| CastTo (ty : pytype)
| ColumnStop (stop : Z).

Definition literal_of X (e : call X) : list literal :=
  match e with
  | Fillna _ v => [FillValue v]
  | Astype _ ty => [CastTo ty]
  | Iloc _ stop => [ColumnStop stop]
  | _ => []
  end.

Definition written_literals : list literal :=
  [FillValue 0; CastTo py_int; ColumnStop 5; ColumnStop 5].

(** What a cell leaves under itself: a displayed value of some kind, or a
    printed line. *)
Inductive output : Type :=
| OutList | OutFrame | OutTopics | OutModel | OutVis | OutAxes | OutText.

Definition output_of X (e : call X) : list output :=
  match e with
  | Display (ShList _) => [OutList]
  | Display (ShFrame _) => [OutFrame]
  | Display (ShTopics _) => [OutTopics]
  | Display (ShModel _) => [OutModel]
  | Display (ShVis _) => [OutVis]
  | Display (ShAxes _) => [OutAxes]
  | Print _ => [OutText]
  | _ => []
  end.

(** The outputs of cells 4, 5, 6, 7, 8, 10, 11 and 12. *)
Definition cell_outputs : list output :=
  [OutList; OutList; OutText; OutFrame; OutModel; OutTopics; OutVis; OutAxes].

(** Answers of single calls. *)
Definition answers_of {A} (pick : ∀ X, call X -> X -> list A) (t : list entry) : list A :=
  concat (map (λ en, match en with
                     | Entry e (Returned x) => pick _ e x
                     | Entry _ (Raised _) => []
                     end) t).

Definition dtm_answers : list entry -> list DataFrame :=
  answers_of (λ X e, match e in call X return X -> list DataFrame with
                     | CorpusDtm _ => λ d, [d]
                     | _ => λ _, []
                     end).

Definition drop_answers : list entry -> list DataFrame :=
  answers_of (λ X e, match e in call X return X -> list DataFrame with
                     | CorpusDrop _ _ _ => λ d, [d]
                     | _ => λ _, []
                     end).

Definition fillna_answers : list entry -> list DataFrame :=
  answers_of (λ X e, match e in call X return X -> list DataFrame with
                     | Fillna _ _ => λ d, [d]
                     | _ => λ _, []
                     end).

Definition astype_answers : list entry -> list DataFrame :=
  answers_of (λ X e, match e in call X return X -> list DataFrame with
                     | Astype _ _ => λ d, [d]
                     | _ => λ _, []
                     end).

Definition model_answers : list entry -> list Model :=
  answers_of (λ X e, match e in call X return X -> list Model with
                     | LDA _ _ _ => λ m, [m]
                     | _ => λ _, []
                     end).

Definition vis_answers : list entry -> list Visualization :=
  answers_of (λ X e, match e in call X return X -> list Visualization with
                     | Vis _ => λ v, [v]
                     | _ => λ _, []
                     end).

Definition axes_answers : list entry -> list Axes :=
  answers_of (λ X e, match e in call X return X -> list Axes with
                     | TopicDocument _ => λ a, [a]
                     | _ => λ _, []
                     end).

(** Receivers and arguments. *)
Definition corpus_receivers (t : list entry) : list Corpus :=
  project (λ X e, match e with
                  | CorpusMfw c _ => [c]
                  | CorpusHapax c => [c]
                  | CorpusDtm c => [c]
                  | CorpusDrop c _ _ => [c]
                  | _ => []
                  end) t.

Definition model_receivers (t : list entry) : list Model :=
  project (λ X e, match e with
                  | ModelFit m _ => [m]
                  | ModelTopics m => [m]
                  | Vis m => [m]
                  | Display (ShModel m) => [m]
                  | _ => []
                  end) t.

Definition vis_receivers (t : list entry) : list Visualization :=
  project (λ X e, match e with
                  | TopicDocument v => [v]
                  | Display (ShVis v) => [v]
                  | _ => []
                  end) t.

Definition shown_axes (t : list entry) : list Axes :=
  project (λ X e, match e with Display (ShAxes a) => [a] | _ => [] end) t.

Definition fillna_inputs (t : list entry) : list DataFrame :=
  project (λ X e, match e with Fillna d _ => [d] | _ => [] end) t.

Definition astype_inputs (t : list entry) : list DataFrame :=
  project (λ X e, match e with Astype d _ => [d] | _ => [] end) t.

Definition shown_lists (t : list entry) : list (list string) :=
  project (λ X e, match e with Display (ShList l) => [l] | _ => [] end) t.

(** Every object a later call is made on is the one an earlier call
    returned: each receiver is the single answer. *)
Definition same_objects (t : list entry) (o : outcome namespace) : Prop :=
  Forall (λ c, loaded t = [c]) (corpus_receivers t)
  ∧ Forall (λ m, model_answers t = [m]) (model_receivers t)
  ∧ Forall (λ v, vis_answers t = [v]) (vis_receivers t)
  ∧ Forall (λ a, axes_answers t = [a]) (shown_axes t)
  ∧ (∀ g, o = Done g ->
       loaded t = [corpus g] ∧ model_answers t = [model g]
       ∧ vis_answers t = [vis g]
       ∧ length (corpus_receivers t) = 5%nat
       ∧ length (model_receivers t) = 4%nat
       ∧ length (vis_receivers t) = 2%nat).

(** The matrix goes down the chain of cell 7: each call takes what the one
    before returned, and [model.fit] takes the end of the chain. *)
Definition chained (t : list entry) (o : outcome namespace) : Prop :=
  (∀ d fs, (d, fs) ∈ drops t ->
     dtm_answers t = [d]
     ∧ ∃ m l0 l, mfw_answers t = [m] ∧ hapax_answers t = [l0; l] ∧ fs = m ++ l)
  ∧ Forall (λ d, drop_answers t = [d]) (fillna_inputs t)
  ∧ Forall (λ d, fillna_answers t = [d]) (astype_inputs t)
  ∧ Forall (λ d, astype_answers t = [d]) (fitted_on t)
  ∧ (∀ g, o = Done g -> astype_answers t = [dtm g] ∧ fitted_on t = [dtm g]).

(** The two list previews are the first ten items of what [mfw] and the
    first read of [hapax] returned. *)
Definition previews (t : list entry) (o : outcome namespace) : Prop :=
  shown_lists t `prefix_of` map (slice_to 10) (mfw_answers t ++ take 1 (hapax_answers t))
  ∧ (∀ g, o = Done g ->
       shown_lists t = map (slice_to 10) (mfw_answers t ++ take 1 (hapax_answers t))
       ∧ mfw_answers t = [mfw g]).

(** The line cell 6 prints reports the length of [features]. *)
Definition reports_features (t : list entry) (o : outcome namespace) : Prop :=
  ∀ g, o = Done g ->
    printed t = [str (length (features g))
                   +:+ " types will be removed from the corpus."].

End Coverage.

(** ** Facts about programs and their runs *)

Section Facts.
Context `{LibTypes}.

Lemma project_cons {A} (f : ∀ X, call X -> list A) X (e : call X) a t :
  project f (Entry e a :: t) = f X e ++ project f t.
Proof. reflexivity. Qed.

Lemma project_app {A} (f : ∀ X, call X -> list A) t1 t2 :
  project f (t1 ++ t2) = project f t1 ++ project f t2.
Proof. unfold project. by rewrite map_app, concat_app. Qed.

Lemma exec_do_returned {S R X} (h : handler S) (e : call X) (k : X -> nb R) s x s' :
  h X e s = (Returned x, s') ->
  exec h (Do e k) s = after [Entry e (Returned x)] (exec h (k x) s').
Proof. intros Hh. simpl. by rewrite Hh. Qed.

Lemma exec_do_raised {S R X} (h : handler S) (e : call X) (k : X -> nb R) s ex s' :
  h X e s = (Raised ex, s') ->
  exec h (Do e k) s = mkRun [Entry e (Raised ex)] (Uncaught ex) s'.
Proof. intros Hh. simpl. by rewrite Hh. Qed.

(** A straight-line program shows a prefix of its calls in every run, all of
    them in a run that finishes, and lets every exception through. *)
Lemma emits_sound {A} (f : ∀ X, call X -> list A) {R} (p : nb R) l :
  emits f p l ->
  ∀ S (h : handler S) (s : S),
    project f (trace (exec h p s)) `prefix_of` l
    ∧ (finished (exec h p s) -> project f (trace (exec h p s)) = l)
    ∧ propagates (exec h p s).
Proof.
  induction 1 as [r | X e k l _ IH]; intros S h s.
  - simpl. split_and!; [done | done | by constructor].
  - destruct (h X e s) as [[x | ex] s'] eqn:Hh.
    + rewrite (exec_do_returned _ _ _ _ _ _ Hh).
      destruct (IH x S h s') as (Hpre & Hfin & Hprop).
      unfold after, finished, propagates in *. simpl in *.
      rewrite project_cons. split_and!.
      * by apply prefix_app.
      * intros Hdone. by rewrite Hfin.
      * destruct (result (exec h (k x) s')) as [g | ex].
        -- by constructor.
        -- destruct Hprop as (t & Y & e' & -> & Ht).
           exists (Entry e (Returned x) :: t), Y, e'. split; [done |].
           by constructor.
    + rewrite (exec_do_raised _ _ _ _ _ _ Hh).
      unfold finished, propagates. simpl. split_and!.
      * rewrite project_cons. apply prefix_app. simpl. apply prefix_nil.
      * intros [g Hg]. discriminate.
      * exists [], X, e. split; [done | constructor].
Qed.

(** The postcondition calculus is sound for every handler within the
    contract. *)
Lemma post_sound {S} (h : handler S) ok :
  respects h ok ->
  ∀ R (p : nb R) Q s,
    post ok p Q -> Q (trace (exec h p s)) (result (exec h p s)).
Proof.
  intros Hok R p. induction p as [R r | R X e k IH | R A body IHb except IHe k IHk];
    intros Q s Hpost.
  - exact Hpost.
  - simpl in *. specialize (Hpost (h X e s).1 (Hok X e s)).
    destruct (h X e s) as [[x | ex] s']; simpl in *.
    + by apply (IH x _ s') in Hpost.
    + done.
  - simpl in *. apply (IHb _ s) in Hpost.
    set (r1 := exec h body s) in *.
    destruct (result r1) as [a | ex]; simpl.
    + exact (IHk a (λ t o, Q (trace r1 ++ t) o) (final r1) Hpost).
    + apply (IHe ex _ (final r1)) in Hpost.
      set (r2 := exec h (except ex) (final r1)) in *.
      destruct (result r2) as [a | ex']; simpl.
      * exact (IHk a (λ t o, Q ((trace r1 ++ trace r2) ++ t) o) (final r2) Hpost).
      * exact Hpost.
Qed.

Lemma emits_step {A} (f : ∀ X, call X -> list A) {R X} (e : call X) (k : X -> nb R) l l' :
  l' = f X e ++ l -> (∀ x, emits f (k x) l) -> emits f (Do e k) l'.
Proof. intros ->. apply emits_do. Qed.

(** Walk down the cells: one rule per call, the items it shows taken off the
    front of the expected list. *)
Ltac straight_line :=
  unfold notebook, cell1, cell2, cell3, cell4, cell5, cell6, cell7, cell8,
    cell9, cell10, cell11, cell12;
  cbn;
  repeat (eapply emits_step; [simpl; reflexivity | intros ?]);
  apply emits_ret.

Lemma notebook_phases : emits phase_of notebook flow.
Proof. straight_line. Qed.

Lemma notebook_settings : emits setting_of notebook written_settings.
Proof. straight_line. Qed.

Lemma notebook_resources : emits resource_of notebook designated_resources.
Proof. straight_line. Qed.

Lemma notebook_spawns : emits spawn_of notebook [].
Proof. straight_line. Qed.

Lemma notebook_concurrency : emits concurrent_of notebook [].
Proof. straight_line. Qed.

Lemma notebook_calls : emits (λ X (_ : call X), [()]) notebook (replicate 27 ()).
Proof. straight_line. Qed.

Lemma project_units t : length (project (λ X (_ : call X), [()]) t) = length t.
Proof.
  induction t as [| [X e a] t IH]; [done |].
  rewrite project_cons. simpl. by rewrite IH.
Qed.

Lemma flow_in_order : in_order flow.
Proof. unfold in_order, flow. repeat constructor; simpl; lia. Qed.

(** ** The claims about what the notebook calls *)

(** C1.  The code cells, run in order, perform one flow in this sequence: the
    corpus is loaded ([cophi.corpus]) before the filter list is built ([mfw],
    [hapax]), the list before the matrix is built by dropping those
    features, the matrix before the model is fitted on it ([model.fit]), and
    the model before any visualization ([Vis], [topic_document]).  In every
    run the steps reached are an initial part of that flow, in that order,
    and a run that finishes has gone through all of it exactly once. *)
Theorem notebook_flow_in_sequence {S} (h : handler S) (s : S) :
  let steps := project phase_of (trace (exec h notebook s)) in
  steps `prefix_of` flow
  ∧ in_order steps
  ∧ (finished (exec h notebook s) -> steps = flow).
Proof.
  intros steps. subst steps.
  destruct (emits_sound _ _ _ notebook_phases S h s) as (Hpre & Hfin & _).
  split_and!; [done | | done].
  destruct Hpre as [rest Hrest]. pose proof flow_in_order as Hflow.
  unfold in_order in *. rewrite Hrest in Hflow.
  by apply StronglySorted_app_1_l in Hflow.
Qed.

(** C2.  Every configuration value written in the notebook (the stopword
    count 50, ten topics, a thousand iterations, the path of the mallet
    executable) reaches exactly one library call ([corpus.mfw] or
    [dariah.core.LDA]) as it is written: the settings the libraries receive
    in any run are an initial part of the written ones, and all of them,
    each once, in a run that finishes. *)
Theorem settings_passed_unchanged {S} (h : handler S) (s : S) :
  let received := project setting_of (trace (exec h notebook s)) in
  received `prefix_of` written_settings
  ∧ (finished (exec h notebook s) -> received = written_settings).
Proof.
  intros received. subst received.
  destruct (emits_sound _ _ _ notebook_settings S h s) as (Hpre & Hfin & _).
  done.
Qed.

(** C3.  No cell has a [try]/[except] or any other error handling, so
    whenever a library call raises, the run stops at that call with the
    library's own exception, unchanged and uncaught. *)
Theorem library_errors_propagate :
  emits (λ X (_ : call X), [()]) notebook (replicate 27 ())
  ∧ ∀ S (h : handler S) (s : S), propagates (exec h notebook s).
Proof.
  split; [apply notebook_calls |].
  intros S h s.
  by destruct (emits_sound _ _ _ notebook_calls S h s) as (_ & _ & Hprop).
Qed.

(** C5.  The only external resources the notebook names are the corpus
    directory, handed to [cophi.corpus], and the path of the mallet
    executable, handed to [dariah.core.LDA]; its own code opens no file, no
    URL and reads no environment variable. *)
Theorem designated_resources_only {S} (h : handler S) (s : S) :
  let named := project resource_of (trace (exec h notebook s)) in
  named `prefix_of` designated_resources
  ∧ (finished (exec h notebook s) -> named = designated_resources).
Proof.
  intros named. subst named.
  destruct (emits_sound _ _ _ notebook_resources S h s) as (Hpre & Hfin & _).
  done.
Qed.

(** C6.  The notebook's own code never starts a process: no cell calls
    subprocess, os.system or the like.  All it does about MALLET is pass the
    path string to [dariah.core.LDA]. *)
Theorem no_process_spawned {S} (h : handler S) (s : S) :
  project spawn_of (trace (exec h notebook s)) = []
  ∧ (finished (exec h notebook s) ->
     MalletPath "mallet-2.0.8/bin/mallet"
       ∈ project setting_of (trace (exec h notebook s))).
Proof.
  destruct (emits_sound _ _ _ notebook_spawns S h s) as (Hpre & _ & _).
  destruct (emits_sound _ _ _ notebook_settings S h s) as (_ & Hfin & _).
  split.
  - by apply prefix_nil_inv.
  - intros Hdone. rewrite (Hfin Hdone). unfold written_settings.
    repeat first [apply list_elem_of_here | apply list_elem_of_further].
Qed.

(** C7.  The notebook is straight-line, synchronous code: no cell starts a
    thread, a coroutine or an async task, and a run is one sequence of at
    most the 27 calls written in the cells, each answered before the next
    is made. *)
Theorem no_concurrency {S} (h : handler S) (s : S) :
  project concurrent_of (trace (exec h notebook s)) = []
  ∧ (length (trace (exec h notebook s)) <= 27)%nat.
Proof.
  destruct (emits_sound _ _ _ notebook_concurrency S h s) as (Hpre & _ & _).
  destruct (emits_sound _ _ _ notebook_calls S h s) as (Hcalls & _ & _).
  split.
  - by apply prefix_nil_inv.
  - apply prefix_length in Hcalls.
    by rewrite project_units, length_replicate in Hcalls.
Qed.

(** ** The claims about the matrix *)

Ltac in_small_list :=
  match goal with
  | Hin : _ ∈ [] |- _ => by apply not_elem_of_nil in Hin
  | Hin : _ ∈ [_] |- _ => apply list_elem_of_singleton in Hin; subst
  end.

Ltac close_dataflow :=
  unfold dataflow; split_and!;
  [ intros d Hd; cbn in Hd; in_small_list; unfold filtered;
    eexists _, _;
    (split_and!;
     [reflexivity | eauto | intros w Hw; apply elem_of_app; right; eauto])
  | intros e He; cbn in He; in_small_list; unfold filtered;
    eexists _, _; (split; [reflexivity | eauto])
  | intros g Hg; simplify_eq; simpl; split_and!; eauto ].

(** Go through the calls of a postcondition: each may return, and the walk
    goes on, or raise, and the run ends there. *)
Ltac walk finish :=
  lazymatch goal with
  | |- ∀ a, _ -> _ =>
      intros [? | ?] ?Hok;
      [ cbn in * |-; cbn; simplify_eq; walk finish
      | cbn in * |-; cbn; simplify_eq; finish ]
  | _ => finish
  end.

Lemma notebook_dataflow (matrix_of : Corpus -> DataFrame) :
  post (library_contract matrix_of) notebook (dataflow matrix_of).
Proof.
  unfold notebook, cell1, cell2, cell3, cell4, cell5, cell6, cell7, cell8,
    cell9, cell10, cell11, cell12.
  cbn.
  walk ltac:(close_dataflow).
Qed.

Lemma run_dataflow {S} (h : handler S) (s : S) matrix_of :
  respects h (library_contract matrix_of) ->
  dataflow matrix_of (trace (exec h notebook s)) (result (exec h notebook s)).
Proof.
  intros Hok. apply (post_sound h _ Hok), notebook_dataflow.
Qed.

(** *** The frame operations *)

Lemma drop_row_Forall (P : cell -> Prop) fs cols row :
  Forall P row -> Forall P (drop_row fs cols row).
Proof.
  revert row. induction cols as [| c cols IH]; intros [| x row] Hrow; simpl;
    try constructor.
  inversion Hrow; subst. case_decide; [by apply IH |].
  constructor; [done | by apply IH].
Qed.

Lemma entries_drop (P : cell -> Prop) d fs : entries P d -> entries P (drop d fs).
Proof.
  unfold entries, drop. simpl. intros Hd. apply List.Forall_map.
  eapply Forall_impl; [exact Hd |]. intros row. apply drop_row_Forall.
Qed.

Lemma entries_fillna d v :
  0 <= v -> entries count_or_missing d -> entries present_count (fillna d v).
Proof.
  unfold entries, fillna. simpl. intros Hv Hd. apply List.Forall_map.
  eapply Forall_impl; [exact Hd |]. intros row Hrow. apply List.Forall_map.
  eapply Forall_impl; [exact Hrow |]. by intros [| z | z].
Qed.

Lemma cast_row_int row :
  Forall present_count row ->
  ∃ row', mapM (cast py_int) row = Some row' ∧ Forall nonneg_int row'.
Proof.
  induction 1 as [| c row Hc _ (row' & Hrow' & Hint)].
  - by exists [].
  - destruct c as [| z | z]; [done | |]; exists (Int z :: row'); simpl;
      rewrite Hrow'; (split; [done | by constructor]).
Qed.

Lemma cast_rows_int rows :
  Forall (Forall present_count) rows ->
  ∃ rows', mapM (mapM (cast py_int)) rows = Some rows'
           ∧ Forall (Forall nonneg_int) rows'.
Proof.
  induction 1 as [| row rows Hrow _ (rows' & Hrows' & Hint)].
  - by exists [].
  - destruct (cast_row_int row Hrow) as (row' & Hrow' & Hint').
    exists (row' :: rows'). simpl. rewrite Hrow'. simpl. rewrite Hrows'.
    split; [done | by constructor].
Qed.

Lemma astype_shape d ty d' :
  astype d ty = Returned d' ->
  index d' = index d ∧ columns d' = columns d
  ∧ length (values d') = length (values d).
Proof.
  unfold astype. destruct (mapM _ (values d)) as [vs |] eqn:Hvs; [| done].
  intros [= <-]. simpl. split_and!; [done | done |].
  apply mapM_Some_1, Forall2_length in Hvs. done.
Qed.

Lemma filtered_rows d fs d' :
  filtered d fs = Returned d' ->
  index d' = index d ∧ length (values d') = length (values d).
Proof.
  intros Hd'. apply astype_shape in Hd' as (Hi & _ & Hlen). simpl in *.
  by rewrite !length_map in Hlen.
Qed.

Lemma filtered_columns d fs d' :
  filtered d fs = Returned d' -> columns d' = filter (λ c, c ∉ fs) (columns d).
Proof. intros Hd'. by apply astype_shape in Hd' as (_ & Hc & _). Qed.

Lemma filtered_counts d fs :
  entries count_or_missing d ->
  ∃ d', filtered d fs = Returned d' ∧ entries nonneg_int d'.
Proof.
  intros Hd.
  pose proof (entries_fillna _ 0 (Z.le_refl 0) (entries_drop _ _ fs Hd)) as Hfilled.
  destruct (cast_rows_int _ Hfilled) as (rows' & Hrows' & Hint).
  unfold filtered, astype. rewrite Hrows'. eexists. split; [done |]. exact Hint.
Qed.


(** C4.  Every hapax legomenon of the corpus, every word type that occurs
    exactly once, is in the feature list used for filtering, so the matrix
    the drop step produces has no column for a word occurring once.  Here
    the libraries keep their contract: [corpus.hapax] lists every such word
    of [corpus.dtm], and [drop], [fillna], [astype] do what they document. *)
Theorem hapax_columns_dropped {S} (h : handler S) (s : S) matrix_of :
  respects h (library_contract matrix_of) ->
  (∀ g, result (exec h notebook s) = Done g ->
     ∀ w, occurs_once (matrix_of (corpus g)) w ->
       w ∈ features g ∧ w ∉ columns (dtm g))
  ∧ (∀ d, d ∈ fitted_on (trace (exec h notebook s)) ->
       ∃ c, loaded (trace (exec h notebook s)) = [c]
            ∧ ∀ w, occurs_once (matrix_of c) w -> w ∉ columns d).
Proof.
  intros Hok. destruct (run_dataflow h s matrix_of Hok) as (Hfit & _ & Hend).
  split.
  - intros g Hg w Hw.
    destruct (Hend g Hg) as (_ & Hdtm & l & Hfeatures & Hl).
    assert (w ∈ features g) as Hin.
    { rewrite Hfeatures. apply elem_of_app. right. by apply Hl. }
    split; [done |].
    rewrite (filtered_columns _ _ _ Hdtm). rewrite list_elem_of_filter.
    by intros [Hout _].
  - intros d Hd. destruct (Hfit d Hd) as (c & fs & Hc & Hdtm & Hfs).
    exists c. split; [done |]. intros w Hw.
    rewrite (filtered_columns _ _ _ Hdtm). rewrite list_elem_of_filter.
    intros [Hout _]. by apply Hout, Hfs.
Qed.

(** C8.  After the filtering cell the matrix given to [model.fit] has no
    missing value and integer dtype: when the entries of the corpus's matrix
    are non-negative counts or missing, the cast does not fail and every
    entry of [corpus.drop(corpus.dtm, features).fillna(0).astype(int)] is a
    non-negative integer. *)
Theorem fitted_matrix_nonneg_int {S} (h : handler S) (s : S) matrix_of :
  respects h (library_contract matrix_of) ->
  (∀ c, entries count_or_missing (matrix_of c)) ->
  Forall (entries nonneg_int) (fitted_on (trace (exec h notebook s)))
  ∧ failed_casts (trace (exec h notebook s)) = []
  ∧ (∀ g, result (exec h notebook s) = Done g -> entries nonneg_int (dtm g)).
Proof.
  intros Hok Hcounts.
  destruct (run_dataflow h s matrix_of Hok) as (Hfit & Hcast & Hend).
  split_and!.
  - apply Forall_forall. intros d Hd.
    destruct (Hfit d Hd) as (c & fs & _ & Hdtm & _).
    destruct (filtered_counts (matrix_of c) fs (Hcounts c)) as (d' & Hd' & Hint).
    congruence.
  - destruct (failed_casts _) as [| ex rest]; [done |].
    destruct (Hcast ex) as (c & fs & _ & Hdtm); [apply list_elem_of_here |].
    destruct (filtered_counts (matrix_of c) fs (Hcounts c)) as (d' & Hd' & _).
    congruence.
  - intros g Hg. destruct (Hend g Hg) as (_ & Hdtm & _).
    destruct (filtered_counts (matrix_of (corpus g)) (features g) (Hcounts _))
      as (d' & Hd' & Hint).
    congruence.
Qed.

(** C10.  Filtering the vocabulary changes only the columns: the document
    rows of the filtered matrix [dtm] are those of [corpus.dtm], the same
    labels in the same order and as many rows; dropping features removes or
    reorders no document. *)
Theorem rows_untouched {S} (h : handler S) (s : S) matrix_of :
  respects h (library_contract matrix_of) ->
  (∀ g, result (exec h notebook s) = Done g ->
     index (dtm g) = index (matrix_of (corpus g))
     ∧ length (values (dtm g)) = length (values (matrix_of (corpus g))))
  ∧ (∀ d, d ∈ fitted_on (trace (exec h notebook s)) ->
       ∃ c, loaded (trace (exec h notebook s)) = [c]
            ∧ index d = index (matrix_of c)
            ∧ length (values d) = length (values (matrix_of c))).
Proof.
  intros Hok. destruct (run_dataflow h s matrix_of Hok) as (Hfit & _ & Hend).
  split.
  - intros g Hg. destruct (Hend g Hg) as (_ & Hdtm & _).
    by apply filtered_rows in Hdtm.
  - intros d Hd. destruct (Hfit d Hd) as (c & fs & Hc & Hdtm & _).
    exists c. split; [done |]. by apply filtered_rows in Hdtm.
Qed.

(** *** The printed count *)

Ltac close_print :=
  unfold print_count; intros text Htext; cbn in Htext; in_small_list;
  eexists _, _, _;
  (split_and!;
   [ reflexivity | reflexivity | by rewrite length_app
   | intros g Hg; by simplify_eq ]).

Lemma notebook_print_count : post no_contract notebook print_count.
Proof.
  unfold notebook, cell1, cell2, cell3, cell4, cell5, cell6, cell7, cell8,
    cell9, cell10, cell11, cell12.
  cbn.
  walk ltac:(close_print).
Qed.

(** A list that repeats a word names fewer columns than it has items. *)
Lemma overlap_counts_twice (m l cols : list string) w :
  w ∈ m -> w ∈ l -> NoDup cols ->
  (length (filter (λ c, c ∈ m ++ l) cols) < length m + length l)%nat.
Proof.
  intros Hm Hl Hcols. rewrite <-length_app.
  set (kept := filter (λ c, c ∈ m ++ l) cols).
  assert (NoDup kept) as Hkept by by apply NoDup_filter.
  assert (kept ⊆+ m ++ l) as Hsub.
  { apply NoDup_submseteq; [done |]. intros c Hc.
    by apply list_elem_of_filter in Hc as [Hc _]. }
  pose proof (submseteq_length _ _ Hsub) as Hle.
  destruct (decide (length kept = length (m ++ l))) as [Heq | Hne]; [| lia].
  exfalso.
  assert (kept ≡ₚ m ++ l) as Hperm.
  { apply submseteq_length_Permutation; [done | lia]. }
  rewrite Hperm in Hkept. apply NoDup_app in Hkept as (_ & Hdisjoint & _).
  by apply (Hdisjoint w).
Qed.

(** C9.  The count printed as the number of types to be removed is
    [len(mfw) + len(hapax)]: the concatenation [mfw + corpus.hapax] is not
    deduplicated, so a word that is among the most frequent words and in the
    hapax list is counted twice, and the printed number can exceed the
    number of distinct types actually dropped (in the small reference
    corpus, 9 printed and 6 columns dropped). *)
Theorem printed_count_is_sum :
  (∀ S (h : handler S) (s : S) text,
     text ∈ printed (trace (exec h notebook s)) ->
     ∃ m l0 l,
       mfw_answers (trace (exec h notebook s)) = [m]
       ∧ hapax_answers (trace (exec h notebook s)) = [l0; l]
       ∧ text = str (length m + length l)
                  +:+ " types will be removed from the corpus."
       ∧ (∀ g, result (exec h notebook s) = Done g ->
            mfw g = m ∧ features g = m ++ l)
       ∧ (∀ w d, w ∈ m -> w ∈ l -> NoDup (columns d) ->
            (length (dropped_types d (m ++ l)) < length m + length l)%nat))
  ∧ (∃ d fs,
       printed (trace (ref_run small_world))
         = [str 9 +:+ " types will be removed from the corpus."]
       ∧ drops (trace (ref_run small_world)) = [(d, fs)]
       ∧ length fs = 9%nat
       ∧ length (dropped_types d fs) = 6%nat).
Proof.
  split.
  - intros S h s text Htext.
    assert (respects h no_contract) as Hok by done.
    pose proof (post_sound h _ Hok _ notebook _ s notebook_print_count) as Hrun.
    destruct (Hrun text Htext) as (m & l0 & l & Hm & Hl & Htxt & Hg).
    exists m, l0, l. split_and!; try done.
    intros w d Hwm Hwl Hd. by apply (overlap_counts_twice m l (columns d) w).
  - eexists _, _. split_and!; [vm_compute; reflexivity ..].
Qed.

(** ** Further facts about the cells *)

Lemma notebook_names : emits name_of notebook skeleton.
Proof. straight_line. Qed.

Lemma notebook_load : emits load_of notebook written_load.
Proof. straight_line. Qed.

Lemma notebook_literals : emits literal_of notebook written_literals.
Proof. straight_line. Qed.

Lemma notebook_outputs : emits output_of notebook cell_outputs.
Proof. straight_line. Qed.

Lemma one_name X (e : call X) : ∃ n, name_of X e = [n].
Proof. destruct e; eexists; reflexivity. Qed.

Lemma names_pointwise t l :
  project name_of t `prefix_of` l ->
  Forall2 (λ en n, match en with Entry e _ => name_of _ e = [n] end)
          t (take (length t) l).
Proof.
  revert l. induction t as [| [X e a] t IH]; intros l Hpre; [constructor |].
  rewrite project_cons in Hpre. destruct (one_name X e) as [n Hn].
  rewrite Hn in Hpre. destruct Hpre as [rest ->]. simpl.
  constructor; [done |]. apply IH. by exists rest.
Qed.

(** X1.  The calls of every run are the calls written in the cells, in the
    order of the cells: the i-th call made is the i-th call written, from
    the three imports to the last plot, and a run that finishes has made
    all 27. *)
Theorem calls_follow_the_cells {S} (h : handler S) (s : S) :
  Forall2 (λ en n, match en with Entry e _ => name_of _ e = [n] end)
          (trace (exec h notebook s))
          (take (length (trace (exec h notebook s))) skeleton)
  ∧ (finished (exec h notebook s) -> length (trace (exec h notebook s)) = 27%nat).
Proof.
  destruct (emits_sound _ _ _ notebook_names S h s) as (Hpre & _ & _).
  split; [by apply names_pointwise |].
  intros Hdone.
  destruct (emits_sound _ _ _ notebook_calls S h s) as (_ & Hfin & _).
  pose proof (f_equal length (Hfin Hdone)) as H27.
  by rewrite project_units, length_replicate in H27.
Qed.

(** X2.  The options of [cophi.corpus] reach it as written: the directory
    data/british-fiction-corpus, lowercase on, the token pattern, metadata
    off; the corpus is loaded at most once in a run, and once in a run that
    finishes. *)
Theorem load_options_as_written {S} (h : handler S) (s : S) :
  let options := project load_of (trace (exec h notebook s)) in
  options `prefix_of` written_load
  ∧ (finished (exec h notebook s) -> options = written_load).
Proof.
  intros options. subst options.
  by destruct (emits_sound _ _ _ notebook_load S h s) as (Hpre & Hfin & _).
Qed.

(** X3.  The literal arguments of the pandas calls are the written ones, in
    this order: missing values are filled with 0, the matrix is cast to
    int, and each of the two previews takes the columns before 5. *)
Theorem pandas_literals_as_written {S} (h : handler S) (s : S) :
  let literals := project literal_of (trace (exec h notebook s)) in
  literals `prefix_of` written_literals
  ∧ (finished (exec h notebook s) -> literals = written_literals).
Proof.
  intros literals. subst literals.
  by destruct (emits_sound _ _ _ notebook_literals S h s) as (Hpre & Hfin & _).
Qed.

(** X4.  What the cells leave as output, in order: two list previews, the
    printed line, the matrix preview, the model, the topics preview, the
    visualization and the plot; seven displayed values and one printed
    line in a run that finishes, an initial part of them otherwise. *)
Theorem outputs_in_order {S} (h : handler S) (s : S) :
  let outputs := project output_of (trace (exec h notebook s)) in
  outputs `prefix_of` cell_outputs
  ∧ (finished (exec h notebook s) -> outputs = cell_outputs).
Proof.
  intros outputs. subst outputs.
  by destruct (emits_sound _ _ _ notebook_outputs S h s) as (Hpre & Hfin & _).
Qed.

(** *** Who receives what *)

Ltac close_objects :=
  unfold same_objects; cbn;
  (split_and!;
   [ repeat (constructor; try reflexivity) ..
   | intros g Hg; simplify_eq; cbn; done ]).

Lemma notebook_same_objects : post no_contract notebook same_objects.
Proof.
  unfold notebook, cell1, cell2, cell3, cell4, cell5, cell6, cell7, cell8,
    cell9, cell10, cell11, cell12.
  cbn.
  walk ltac:(close_objects).
Qed.

Ltac close_chain :=
  unfold chained; cbn;
  (split_and!;
   [ intros d fs Hd; cbn in Hd; in_small_list; simplify_eq;
     (split; [reflexivity | eexists _, _, _; split_and!; reflexivity])
   | repeat (constructor; try reflexivity) ..
   | intros g Hg; simplify_eq; cbn; done ]).

Lemma notebook_chained : post no_contract notebook chained.
Proof.
  unfold notebook, cell1, cell2, cell3, cell4, cell5, cell6, cell7, cell8,
    cell9, cell10, cell11, cell12.
  cbn.
  walk ltac:(close_chain).
Qed.

Ltac close_previews :=
  unfold previews; cbn;
  (split;
   [ first [ reflexivity | apply prefix_nil | apply prefix_cons, prefix_nil ]
   | intros g Hg; simplify_eq; cbn; done ]).

Lemma notebook_previews : post no_contract notebook previews.
Proof.
  unfold notebook, cell1, cell2, cell3, cell4, cell5, cell6, cell7, cell8,
    cell9, cell10, cell11, cell12.
  cbn.
  walk ltac:(close_previews).
Qed.

(** X5.  Every method of the corpus ([mfw], both reads of [hapax], [dtm],
    [drop]) is called on the one corpus [cophi.corpus] returned; a run that
    finishes makes these five calls and binds that corpus to [corpus]. *)
Theorem corpus_methods_on_loaded_corpus {S} (h : handler S) (s : S) :
  Forall (λ c, loaded (trace (exec h notebook s)) = [c])
         (corpus_receivers (trace (exec h notebook s)))
  ∧ (∀ g, result (exec h notebook s) = Done g ->
       loaded (trace (exec h notebook s)) = [corpus g]
       ∧ length (corpus_receivers (trace (exec h notebook s))) = 5%nat).
Proof.
  assert (respects h no_contract) as Hok by done.
  destruct (post_sound h _ Hok _ notebook _ s notebook_same_objects)
    as (Hcorpus & _ & _ & _ & Hend).
  split; [done |]. intros g Hg. by destruct (Hend g Hg) as (? & _ & _ & ? & _).
Qed.

(** X6.  One model goes through cells 8 to 12: the model displayed, fitted,
    read for its topics and handed to [Vis] is the one [dariah.core.LDA]
    returned; the visualization displayed and plotted is the one [Vis]
    returned, and the plot displayed is the one [topic_document] returned. *)
Theorem one_model_throughout {S} (h : handler S) (s : S) :
  Forall (λ m, model_answers (trace (exec h notebook s)) = [m])
         (model_receivers (trace (exec h notebook s)))
  ∧ Forall (λ v, vis_answers (trace (exec h notebook s)) = [v])
           (vis_receivers (trace (exec h notebook s)))
  ∧ Forall (λ a, axes_answers (trace (exec h notebook s)) = [a])
           (shown_axes (trace (exec h notebook s)))
  ∧ (∀ g, result (exec h notebook s) = Done g ->
       model_answers (trace (exec h notebook s)) = [model g]
       ∧ vis_answers (trace (exec h notebook s)) = [vis g]
       ∧ length (model_receivers (trace (exec h notebook s))) = 4%nat
       ∧ length (vis_receivers (trace (exec h notebook s))) = 2%nat).
Proof.
  assert (respects h no_contract) as Hok by done.
  destruct (post_sound h _ Hok _ notebook _ s notebook_same_objects)
    as (_ & Hmodel & Hvis & Haxes & Hend).
  split_and!; [done | done | done |].
  intros g Hg. by destruct (Hend g Hg) as (_ & ? & ? & _ & ? & ?).
Qed.

(** X7.  The matrix goes down the chain of cell 7 as written:
    [corpus.drop] takes what [corpus.dtm] returned and the list [mfw]
    followed by the second read of [hapax]; [fillna] takes what [drop]
    returned; [astype] takes what [fillna] returned; and what [astype]
    returned is bound to [dtm] and given to [model.fit], not the five-column
    preview. *)
Theorem matrix_chain {S} (h : handler S) (s : S) :
  let t := trace (exec h notebook s) in
  (∀ d fs, (d, fs) ∈ drops t ->
     dtm_answers t = [d]
     ∧ ∃ m l0 l, mfw_answers t = [m] ∧ hapax_answers t = [l0; l] ∧ fs = m ++ l)
  ∧ Forall (λ d, drop_answers t = [d]) (fillna_inputs t)
  ∧ Forall (λ d, fillna_answers t = [d]) (astype_inputs t)
  ∧ Forall (λ d, astype_answers t = [d]) (fitted_on t)
  ∧ (∀ g, result (exec h notebook s) = Done g ->
       astype_answers t = [dtm g] ∧ fitted_on t = [dtm g]).
Proof.
  assert (respects h no_contract) as Hok by done.
  exact (post_sound h _ Hok _ notebook _ s notebook_chained).
Qed.

(** X8.  The list previews of cells 4 and 5 show at most ten items, the
    first ten of what [mfw] and the first read of [hapax] returned (all of
    a shorter list); the slice is for display only, and [mfw] stays bound to
    the whole list. *)
Theorem list_previews {S} (h : handler S) (s : S) :
  let t := trace (exec h notebook s) in
  shown_lists t `prefix_of` map (slice_to 10) (mfw_answers t ++ take 1 (hapax_answers t))
  ∧ Forall (λ xs, (length xs <= 10)%nat) (shown_lists t)
  ∧ (∀ g, result (exec h notebook s) = Done g ->
       shown_lists t = map (slice_to 10) (mfw_answers t ++ take 1 (hapax_answers t))
       ∧ mfw_answers t = [mfw g]).
Proof.
  intros t. subst t.
  assert (respects h no_contract) as Hok by done.
  destruct (post_sound h _ Hok _ notebook _ s notebook_previews) as (Hpre & Hend).
  split_and!; [done | | done].
  apply Forall_forall. intros xs Hxs.
  eapply elem_of_prefix in Hxs; [| exact Hpre].
  apply list_elem_of_In, in_map_iff in Hxs as (ys & <- & _).
  unfold slice_to. rewrite length_take. lia.
Qed.

(** *** The columns and counts that survive the filter *)

Lemma cell_at_no_row cols w : cell_at cols [] w = NaN.
Proof. by destruct cols. Qed.

Lemma cell_at_drop_row fs cols row w :
  w ∉ fs ->
  cell_at (filter (λ c, c ∉ fs) cols) (drop_row fs cols row) w = cell_at cols row w.
Proof.
  intros Hw. revert row. induction cols as [| c cols IH]; intros row.
  - by destruct row.
  - destruct row as [| x row].
    + simpl. by rewrite !cell_at_no_row.
    + rewrite filter_cons. simpl.
      destruct (decide (c ∈ fs)) as [Hin | Hout].
      * rewrite decide_False by (by intros Hn; apply Hn).
        rewrite decide_False by (by intros ->). apply IH.
      * rewrite decide_True by done. simpl.
        destruct (decide (c = w)); [done | apply IH].
Qed.

Lemma count_fill cols row w :
  count_of (cell_at cols (map (fill 0) row) w) = count_of (cell_at cols row w).
Proof.
  revert row. induction cols as [| c cols IH]; intros [| x row]; simpl; try done.
  destruct (decide (c = w)); [by destruct x | apply IH].
Qed.

Lemma count_cast cols row row' w :
  Forall2 (λ x y, cast py_int x = Some y) row row' ->
  count_of (cell_at cols row' w) = count_of (cell_at cols row w).
Proof.
  intros Hrow. revert cols.
  induction Hrow as [| x y row row' Hxy _ IH]; intros [| c cols]; simpl; try done.
  destruct (decide (c = w)); [| apply IH].
  destruct x; simpl in Hxy; by simplify_eq.
Qed.

Lemma filtered_total d fs d' w :
  filtered d fs = Returned d' -> w ∉ fs -> total d' w = total d w.
Proof.
  unfold filtered, astype. simpl.
  destruct (mapM _ _) as [vs |] eqn:Hvs; [| done].
  intros [= <-] Hw. unfold total. simpl.
  apply mapM_Some_1 in Hvs. revert vs Hvs.
  induction (values d) as [| row rows IH]; intros vs Hvs; simpl in *.
  - by inversion Hvs.
  - inversion Hvs as [| ? row' ? vs' Hrow Hrows]; subst. simpl.
    rewrite (IH vs' Hrows). f_equal.
    apply mapM_Some_1 in Hrow.
    rewrite (count_cast _ _ _ _ Hrow), count_fill.
    by rewrite cell_at_drop_row.
Qed.

(** X9.  When the libraries keep their contract, the columns of [dtm] are
    exactly the columns of [corpus.dtm] that are not in [features], in their
    original order: none of the most frequent words [mfw] returned remains,
    and every word not listed stays. *)
Theorem kept_columns {S} (h : handler S) (s : S) matrix_of g :
  respects h (library_contract matrix_of) ->
  result (exec h notebook s) = Done g ->
  columns (dtm g)
    = filter (λ c, c ∉ features g) (columns (matrix_of (corpus g)))
  ∧ (∀ w, w ∈ mfw g -> w ∉ columns (dtm g))
  ∧ (∀ w, w ∈ columns (matrix_of (corpus g)) -> w ∉ features g ->
       w ∈ columns (dtm g)).
Proof.
  intros Hok Hg.
  destruct (run_dataflow h s matrix_of Hok) as (_ & _ & Hend).
  destruct (Hend g Hg) as (_ & Hdtm & l & Hfeatures & _).
  pose proof (filtered_columns _ _ _ Hdtm) as Hcols.
  split_and!; [done | |].
  - intros w Hw. rewrite Hcols, list_elem_of_filter. intros [Hout _].
    apply Hout. rewrite Hfeatures. apply elem_of_app. by left.
  - intros w Hw Hout. rewrite Hcols. by apply list_elem_of_filter.
Qed.

(** X10.  When the libraries keep their contract, filtering leaves the
    counts of the surviving words alone: for every column of [dtm], the
    word occurs in the filtered matrix as often as in [corpus.dtm], a
    missing entry counting as 0. *)
Theorem kept_counts_unchanged {S} (h : handler S) (s : S) matrix_of g w :
  respects h (library_contract matrix_of) ->
  result (exec h notebook s) = Done g ->
  w ∈ columns (dtm g) ->
  total (dtm g) w = total (matrix_of (corpus g)) w.
Proof.
  intros Hok Hg Hw.
  destruct (run_dataflow h s matrix_of Hok) as (_ & _ & Hend).
  destruct (Hend g Hg) as (_ & Hdtm & _).
  rewrite (filtered_columns _ _ _ Hdtm) in Hw.
  apply list_elem_of_filter in Hw as [Hout _].
  by apply (filtered_total _ _ _ _ Hdtm).
Qed.

(** *** The printed line *)

Ltac close_reports :=
  unfold reports_features; intros g Hg; simplify_eq; cbn; reflexivity.

Lemma notebook_reports_features : post no_contract notebook reports_features.
Proof.
  unfold notebook, cell1, cell2, cell3, cell4, cell5, cell6, cell7, cell8,
    cell9, cell10, cell11, cell12.
  cbn.
  walk ltac:(close_reports).
Qed.

Lemma list_ascii_of_append s1 s2 :
  String.list_ascii_of_string (s1 +:+ s2)
  = String.list_ascii_of_string s1 ++ String.list_ascii_of_string s2.
Proof. induction s1 as [| a s1 IH]; simpl; [done | by rewrite IH]. Qed.

Lemma append_inj_l s1 s2 suffix : s1 +:+ suffix = s2 +:+ suffix -> s1 = s2.
Proof.
  intros Heq. apply (f_equal String.list_ascii_of_string) in Heq.
  rewrite !list_ascii_of_append in Heq. apply app_inv_tail in Heq.
  apply (f_equal String.string_of_list_ascii) in Heq.
  by rewrite !String.string_of_list_ascii_of_string in Heq.
Qed.

Lemma str_inj n m : str n = str m -> n = m.
Proof.
  unfold str. intros Heq.
  apply (f_equal NilEmpty.uint_of_string) in Heq.
  rewrite !NilEmpty.usu in Heq. injection Heq as Heq.
  by apply DecimalNat.Unsigned.to_uint_inj.
Qed.

(** X11.  The printed line reports [len(features)] and nothing else varies
    in it: a run that finishes prints exactly one line, the decimal number
    of items in [features] followed by the fixed words, so two runs that
    print the same line had feature lists of the same length. *)
Theorem printed_line_reports_features
    {S1 S2} (h1 : handler S1) (s1 : S1) (h2 : handler S2) (s2 : S2) g1 g2 :
  result (exec h1 notebook s1) = Done g1 ->
  result (exec h2 notebook s2) = Done g2 ->
  printed (trace (exec h1 notebook s1))
    = [str (length (features g1)) +:+ " types will be removed from the corpus."]
  ∧ (printed (trace (exec h1 notebook s1)) = printed (trace (exec h2 notebook s2)) ->
     length (features g1) = length (features g2)).
Proof.
  intros Hg1 Hg2.
  assert (respects h1 no_contract) as Hok1 by done.
  assert (respects h2 no_contract) as Hok2 by done.
  pose proof (post_sound h1 _ Hok1 _ notebook _ s1 notebook_reports_features g1 Hg1)
    as Hp1.
  pose proof (post_sound h2 _ Hok2 _ notebook _ s2 notebook_reports_features g2 Hg2)
    as Hp2.
  split; [done |].
  rewrite Hp1, Hp2. intros [= Heq].
  by apply append_inj_l, str_inj in Heq.
Qed.

End Facts.

(** ** The reference environment keeps the contract *)

Lemma ref_respects :
  @respects RefTypes world ref_handler (@library_contract RefTypes build_dtm).
Proof.
  intros X e w. destruct e; simpl; try done.
  intros word [Hcol Honce]. unfold ref_hapax.
  by apply list_elem_of_filter.
Qed.

Lemma ref_counts (docs : list document) : entries count_or_missing (build_dtm docs).
Proof.
  unfold entries, build_dtm. simpl.
  apply List.Forall_map, Forall_forall. intros doc _.
  apply List.Forall_map, Forall_forall. intros word _.
  unfold bow_cell, occurrences.
  destruct (_ =? 0); simpl; [done | lia].
Qed.

(** ** Runs in the reference environment *)

(** With a [try] around the load, a missing corpus directory would go
    unnoticed: the language of cells can swallow an exception, the notebook
    does not. *)
Example guarded_load_swallows :
  ¬ propagates
      (@exec RefTypes world (list document) ref_handler
         (@Try RefTypes _ (list document)
            (@cell3 RefTypes (Path ["data"; "british-fiction-corpus"]))
            (λ _, @Ret RefTypes (list document) [])
            (@Ret RefTypes (list document)))
         empty_world).
Proof. unfold propagates. vm_compute. by inversion 1. Qed.

Lemma notebook_flow_in_sequence_witness :
  project phase_of (trace (ref_run small_world)) = flow.
Proof.
  apply (notebook_flow_in_sequence ref_handler small_world).
  eexists. vm_compute. reflexivity.
Defined.

Lemma settings_passed_unchanged_witness :
  project setting_of (trace (ref_run small_world)) = written_settings.
Proof.
  apply (settings_passed_unchanged ref_handler small_world).
  eexists. vm_compute. reflexivity.
Defined.

Lemma library_errors_propagate_witness :
  (result (ref_run empty_world)
     = Uncaught (Exn "FileNotFoundError" "no such corpus directory")
   ∧ propagates (ref_run empty_world))
  ∧ (result (ref_run world_without_mallet)
       = Uncaught (Exn "FileNotFoundError" "no such executable")
     ∧ propagates (ref_run world_without_mallet)).
Proof.
  split; (split; [vm_compute; reflexivity |]).
  - apply (proj2 library_errors_propagate world ref_handler empty_world).
  - apply (proj2 library_errors_propagate world ref_handler world_without_mallet).
Defined.

Lemma hapax_columns_dropped_witness :
  ∃ g, result (ref_run larger_world) = Done g
       ∧ "solo" ∈ features g ∧ "solo" ∉ columns (dtm g).
Proof.
  eexists. split; [vm_compute; reflexivity |].
  apply (proj1 (hapax_columns_dropped ref_handler larger_world build_dtm ref_respects)).
  - vm_compute. reflexivity.
  - split; [| vm_compute; reflexivity].
    match goal with |- ?P => apply (bool_decide_unpack P) end.
    vm_compute. exact I.
Defined.

Lemma designated_resources_only_witness :
  project resource_of (trace (ref_run small_world)) = designated_resources.
Proof.
  apply (designated_resources_only ref_handler small_world).
  eexists. vm_compute. reflexivity.
Defined.

Lemma no_process_spawned_witness :
  MalletPath "mallet-2.0.8/bin/mallet"
    ∈ project setting_of (trace (ref_run small_world)).
Proof.
  apply (no_process_spawned ref_handler small_world).
  eexists. vm_compute. reflexivity.
Defined.

Lemma fitted_matrix_nonneg_int_witness :
  ∃ g, result (ref_run larger_world) = Done g
       ∧ columns (dtm g) = map (λ i, "w" +:+ str i) (seq 20 10)
       ∧ entries nonneg_int (dtm g).
Proof.
  eexists. split_and!; [vm_compute; reflexivity ..|].
  apply (fitted_matrix_nonneg_int ref_handler larger_world build_dtm
           ref_respects ref_counts).
  vm_compute. reflexivity.
Defined.

Lemma printed_count_is_sum_witness :
  ∃ m l0 l,
    mfw_answers (trace (ref_run small_world)) = [m]
    ∧ hapax_answers (trace (ref_run small_world)) = [l0; l]
    ∧ "9 types will be removed from the corpus."
        = str (length m + length l) +:+ " types will be removed from the corpus."
    ∧ (∀ g, result (ref_run small_world) = Done g ->
         mfw g = m ∧ features g = m ++ l)
    ∧ (∀ w d, w ∈ m -> w ∈ l -> NoDup (columns d) ->
         (length (dropped_types d (m ++ l)) < length m + length l)%nat).
Proof.
  apply (proj1 (@printed_count_is_sum RefTypes) world ref_handler small_world).
  vm_compute. apply list_elem_of_here.
Defined.

Lemma rows_untouched_witness :
  ∃ g, result (ref_run larger_world) = Done g
       ∧ index (dtm g) = ["eliot_adam"; "eliot_mill"]
       ∧ index (dtm g) = index (build_dtm (corpus g))
       ∧ length (values (dtm g)) = length (values (build_dtm (corpus g))).
Proof.
  eexists. split_and!; [vm_compute; reflexivity ..| |];
    apply (proj1 (rows_untouched ref_handler larger_world build_dtm ref_respects));
    vm_compute; reflexivity.
Defined.

Lemma kept_columns_witness :
  ∃ g, result (ref_run larger_world) = Done g
       ∧ columns (dtm g)
           = filter (λ c, c ∉ features g) (columns (build_dtm (corpus g)))
       ∧ (∀ w, w ∈ mfw g -> w ∉ columns (dtm g))
       ∧ (∀ w, w ∈ columns (build_dtm (corpus g)) -> w ∉ features g ->
            w ∈ columns (dtm g)).
Proof.
  eexists. split; [vm_compute; reflexivity |].
  apply (kept_columns ref_handler larger_world build_dtm _ ref_respects).
  vm_compute. reflexivity.
Defined.

Lemma kept_counts_unchanged_witness :
  ∃ g, result (ref_run larger_world) = Done g
       ∧ total (dtm g) "w20" = 2
       ∧ total (dtm g) "w20" = total (build_dtm (corpus g)) "w20".
Proof.
  eexists. split_and!; [vm_compute; reflexivity .. |].
  apply (kept_counts_unchanged ref_handler larger_world build_dtm _ "w20" ref_respects).
  - vm_compute. reflexivity.
  - match goal with |- ?P => apply (bool_decide_unpack P) end.
    vm_compute. exact I.
Defined.

Lemma printed_line_reports_features_witness :
  ∃ g1 g2 : @namespace RefTypes,
    printed (trace (ref_run small_world))
      = [str (length (features g1)) +:+ " types will be removed from the corpus."]
    ∧ (printed (trace (ref_run small_world)) = printed (trace (ref_run small_world)) ->
       length (features g1) = length (features g2)).
Proof.
  eexists _, _.
  apply (printed_line_reports_features ref_handler small_world ref_handler small_world);
    vm_compute; reflexivity.
Defined.
